(** * Load combinations for formwork design (app.py)

    A shallow embedding of the computational core of [app.py]:
    [calculate_concrete_load], [compute_combinations] and
    [get_combination_description].

    Numbers.  Every load the program handles is a Python [float], that is an
    IEEE-754 binary64 value, and the numeric literals of the source are rounded
    to binary64 when the module is loaded.  Rocq's primitive [float] is the
    same format with the same rounding (to nearest, ties to even), so the
    arithmetic below is the arithmetic of the program, bit for bit; the only
    difference is that Rocq keeps a single NaN.  Equality of floats in the
    statements is Leibniz equality (the same binary64 value), which is finer
    than Python's [==] only in that it tells [0.0] from [-0.0] and equates NaN
    with itself.

    Stages.  The program identifies the three stages by the strings ["1"],
    ["2"] and ["3"]; a stage is therefore a [string].

    Errors.  A Python call either returns a value or raises; the two
    exceptions the catalog can raise are kept apart in [py_exception]. *)

From Stdlib Require Import ZArith List String Ascii Bool Lia Floats DecimalString.
Import ListNotations.

#[local] Set Warnings "-inexact-float".
#[local] Open Scope string_scope.

(* ================================================================== *)
(** * Python values and errors *)

Inductive py_exception : Type :=
| UnboundLocalError
| IndexError.

Inductive py_result (A : Type) : Type :=
| Returns (a : A)
| Raises (e : py_exception).

Arguments Returns {A} a.
Arguments Raises {A} e.

(** [len(l)] as a Python integer. *)
Definition len {A : Type} (l : list A) : Z := Z.of_nat (List.length l).

(** [l[i]] for a Python list: a negative index counts from the end, and an
    index outside [-len(l) .. len(l)-1] raises [IndexError]. *)
Definition list_getitem {A : Type} (l : list A) (i : Z) : py_result A :=
  let j := if (i <? 0)%Z then (i + len l)%Z else i in
  if (j <? 0)%Z then Raises IndexError
  else match nth_error l (Z.to_nat j) with
       | Some a => Returns a
       | None => Raises IndexError
       end.

(** [str(n)] for a Python integer: its decimal digits, with a leading minus
    sign when negative. *)
Definition str_of_int (n : Z) : string := NilZero.string_of_int (Z.to_int n).

(* ================================================================== *)
(** * The concrete load estimator *)

(** [calculate_concrete_load(thickness, reinforcement_percentage)]
    (app.py, lines 27-32).  [base_density] is the integer 24, which Python
    converts to the float 24.0 before multiplying. *)
Definition calculate_concrete_load (thickness reinforcement_percentage : float)
  : float :=
  let base_density := 24%float in
  let reinforcement_load := (0.5 * reinforcement_percentage)%float in
  let G_c :=
    (base_density * thickness + reinforcement_load * thickness)%float in
  G_c.

(* ================================================================== *)
(** * The combination engine *)

(** A combination is the tuple [(vertical, horizontal)]. *)
Definition combination : Type := float * float.

(** [compute_combinations(G_f, G_c, Q_w, Q_m, Q_h, W_s, W_u, F_w, Q_x, P_c, I,
    stage, gamma_d)] (app.py, lines 34-61).  [combinations] starts as the empty
    list and is rebound in the branch of the stage, if any. *)
Definition compute_combinations
  (G_f G_c Q_w Q_m Q_h W_s W_u F_w Q_x P_c I : float)
  (stage : string) (gamma_d : float) : list combination :=
  let combinations : list combination := [] in
  if stage =? "1" then
    let comb_1 := (1.35 * G_f, 0.0)%float in
    let comb_2 :=
      (gamma_d * (1.2 * G_f + 1.5 * Q_w + 1.5 * Q_m + 1.0 * W_s),
       gamma_d * (1.5 * Q_h))%float in
    let comb_3 := (1.2 * G_f + 1.0 * W_u + 1.5 * F_w, 0.0)%float in
    let comb_4 := (0.9 * G_f + 1.0 * W_u + 1.5 * F_w, 0.0)%float in
    let comb_5 := (1.0 * G_f + 1.1 * I, 0.0)%float in
    [comb_1; comb_2; comb_3; comb_4; comb_5]
  else if stage =? "2" then
    let comb_6 := (gamma_d * (1.35 * G_f + 1.35 * G_c), 0.0)%float in
    let comb_7 :=
      (gamma_d * (1.2 * G_f + 1.2 * G_c + 1.5 * Q_w + 1.5 * Q_m + 1.0 * W_s
                  + 1.5 * F_w + 1.5 * Q_x + 1.0 * P_c),
       gamma_d * (1.5 * Q_h))%float in
    let comb_8 := (1.0 * G_f + 1.0 * G_c + 1.1 * I, 0.0)%float in
    [comb_6; comb_7; comb_8]
  else if stage =? "3" then
    let comb_9 := (gamma_d * (1.35 * G_f + 1.35 * G_c), 0.0)%float in
    let comb_10 :=
      (gamma_d * (1.2 * G_f + 1.2 * G_c + 1.5 * Q_w + 1.5 * Q_m + 1.0 * W_s
                  + 1.5 * F_w + 1.5 * Q_x + 1.0 * P_c),
       gamma_d * (1.5 * Q_h))%float in
    let comb_11 := (1.2 * G_f + 1.2 * G_c + 1.0 * W_u, 0.0)%float in
    let comb_12 := (1.0 * G_f + 1.0 * G_c + 1.1 * I, 0.0)%float in
    [comb_9; comb_10; comb_11; comb_12]
  else combinations.

(* ================================================================== *)
(** * The combination catalog *)

(** The local variable [descriptions] of [get_combination_description]
    (app.py, lines 65-85): bound to a list for the three stages, and left
    unbound ([None]) for any other stage. *)
Definition descriptions_of (stage : string) : option (list string) :=
  if stage =? "1" then
    Some [
      "1: 1.35G<sub>f</sub>";
      "2: 1.2G<sub>f</sub> + 1.5Q<sub>w</sub> + 1.5Q<sub>m</sub> + 1.5Q<sub>h</sub> + 1W<sub>s</sub>";
      "3: 1.2G<sub>f</sub> + 1W<sub>u</sub> + 1.5F<sub>w</sub>";
      "4: 0.9G<sub>f</sub> + 1W<sub>u</sub> + 1.5F<sub>w</sub>";
      "5: 1G<sub>f</sub> + 1.1I"
    ]
  else if stage =? "2" then
    Some [
      "6: 1.35G<sub>f</sub> + 1.35G<sub>c</sub>";
      "7: 1.2G<sub>f</sub> + 1.2G<sub>c</sub> + 1.5Q<sub>w</sub> + 1.5Q<sub>m</sub> + 1.5Q<sub>h</sub> + 1W<sub>s</sub> + 1.5F<sub>w</sub> + 1.5Q<sub>x</sub> + P<sub>c</sub>";
      "8: 1G<sub>f</sub> + 1G<sub>c</sub> + 1.1I"
    ]
  else if stage =? "3" then
    Some [
      "9: 1.35G<sub>f</sub> + 1.35G<sub>c</sub>";
      "10: 1.2G<sub>f</sub> + 1.2G<sub>c</sub> + 1.5Q<sub>w</sub> + 1.5Q<sub>m</sub> + 1.5Q<sub>h</sub> + 1W<sub>s</sub> + 1.5F<sub>w</sub> + 1.5Q<sub>x</sub> + P<sub>c</sub>";
      "11: 1.2G<sub>f</sub> + 1.2G<sub>c</sub> + 1.0W<sub>u</sub>";
      "12: 1G<sub>f</sub> + 1G<sub>c</sub> + 1.1I"
    ]
  else None.

(** [get_combination_description(stage, index)] (app.py, lines 63-86).  The
    return statement first evaluates [index < len(descriptions)], which raises
    [UnboundLocalError] when no branch bound [descriptions]; then either the
    subscript [descriptions[index]] or the f-string. *)
Definition get_combination_description (stage : string) (index : Z)
  : py_result string :=
  match descriptions_of stage with
  | None => Raises UnboundLocalError
  | Some descriptions =>
      if (index <? len descriptions)%Z
      then list_getitem descriptions index
      else Returns ("Combination " ++ str_of_int (index + 1))
  end.

(* ================================================================== *)
(** * Reading a label back

    The catalog is kept in step with the engine by hand.  To compare the two,
    a label is read back into its combination number and its list of terms
    (coefficient, load), and the engine is probed one load at a time. *)

Module Load.

(** The eleven load symbols of [compute_combinations]. *)
Inductive t : Type :=
| G_f | G_c | Q_w | Q_m | Q_h | W_s | W_u | F_w | Q_x | P_c | I.

Definition eqb (x y : t) : bool :=
  match x, y with
  | G_f, G_f | G_c, G_c | Q_w, Q_w | Q_m, Q_m | Q_h, Q_h | W_s, W_s
  | W_u, W_u | F_w, F_w | Q_x, Q_x | P_c, P_c | I, I => true
  | _, _ => false
  end.

Definition all : list t :=
  [G_f; G_c; Q_w; Q_m; Q_h; W_s; W_u; F_w; Q_x; P_c; I].

(** How the catalog writes each symbol. *)
Definition markup (x : t) : string :=
  match x with
  | G_f => "G<sub>f</sub>"
  | G_c => "G<sub>c</sub>"
  | Q_w => "Q<sub>w</sub>"
  | Q_m => "Q<sub>m</sub>"
  | Q_h => "Q<sub>h</sub>"
  | W_s => "W<sub>s</sub>"
  | W_u => "W<sub>u</sub>"
  | F_w => "F<sub>w</sub>"
  | Q_x => "Q<sub>x</sub>"
  | P_c => "P<sub>c</sub>"
  | I => "I"
  end.

Definition of_markup (s : string) : option t :=
  find (fun x => markup x =? s) all.

End Load.

(** [s.split(sep)] for a non-empty separator: [skip] counts the characters of
    a separator still to be passed over, [cur] is the piece being read. *)
Fixpoint split_from (sep : string) (skip : nat) (cur s : string) : list string :=
  match s with
  | EmptyString => [cur]
  | String c s' =>
      match skip with
      | S k => split_from sep k cur s'
      | O =>
          if prefix sep s
          then cur :: split_from sep (String.length sep - 1) "" s'
          else split_from sep 0 (cur ++ String c "") s'
      end
  end.

Definition split (sep s : string) : list string := split_from sep 0 "" s.

Definition is_digit (c : ascii) : bool :=
  let n := nat_of_ascii c in (48 <=? n)%nat && (n <=? 57)%nat.

Fixpoint all_digits (s : string) : bool :=
  match s with
  | EmptyString => true
  | String c s' => is_digit c && all_digits s'
  end.

(** The integer a string of decimal digits denotes. *)
Fixpoint int_of_digits (acc : Z) (s : string) : Z :=
  match s with
  | EmptyString => acc
  | String c s' => int_of_digits (10 * acc + Z.of_nat (nat_of_ascii c - 48)) s'
  end.

(** The longest prefix made of digits and points, and what follows it. *)
Fixpoint span_numeral (s : string) : string * string :=
  match s with
  | EmptyString => ("", "")
  | String c s' =>
      if is_digit c || (c =? ".")%char
      then let (n, rest) := span_numeral s' in (String c n, rest)
      else ("", s)
  end.

Definition float_of_int (n : Z) : float := of_uint63 (Uint63.of_Z n).

(** The binary64 value of a numeral [ddd] or [ddd.ddd], as Python's
    [float(...)] reads it: the quotient of two integers that binary64 holds
    exactly is rounded once, to the float nearest the decimal. *)
Definition float_of_numeral (n : string) : option float :=
  match split "." n with
  | [ip] =>
      if all_digits ip && negb (ip =? "")
      then Some (float_of_int (int_of_digits 0 ip))
      else None
  | [ip; fp] =>
      if all_digits ip && all_digits fp && negb (ip =? "") && negb (fp =? "")
      then Some (float_of_int (int_of_digits 0 (ip ++ fp))
                 / float_of_int (10 ^ Z.of_nat (String.length fp)))%float
      else None
  | _ => None
  end.

(** One term of a label: an optional coefficient (1 when left out) and a
    load symbol. *)
Definition parse_term (s : string) : option (float * Load.t) :=
  let (n, sym) := span_numeral s in
  match Load.of_markup sym with
  | None => None
  | Some x =>
      if n =? "" then Some (1%float, x)
      else match float_of_numeral n with
           | Some c => Some (c, x)
           | None => None
           end
  end.

Fixpoint parse_terms (l : list string) : option (list (float * Load.t)) :=
  match l with
  | [] => Some []
  | s :: l' =>
      match parse_term s, parse_terms l' with
      | Some t, Some ts => Some (t :: ts)
      | _, _ => None
      end
  end.

(** A label [N: term + term + ...]. *)
Definition parse_label (s : string) : option (Z * list (float * Load.t)) :=
  match split ": " s with
  | [num; body] =>
      if all_digits num && negb (num =? "")
      then match parse_terms (split " + " body) with
           | Some ts => Some (int_of_digits 0 num, ts)
           | None => None
           end
      else None
  | _ => None
  end.

(** The coefficient a list of terms gives to a load, if it lists it. *)
Fixpoint coefficient (ts : list (float * Load.t)) (x : Load.t) : option float :=
  match ts with
  | [] => None
  | (c, y) :: ts' => if Load.eqb x y then Some c else coefficient ts' x
  end.

(** [compute_combinations] on a parameter set given as a function of the
    load symbol. *)
Definition compute_on (q : Load.t -> float) (stage : string) (gamma_d : float)
  : list combination :=
  compute_combinations
    (q Load.G_f) (q Load.G_c) (q Load.Q_w) (q Load.Q_m) (q Load.Q_h)
    (q Load.W_s) (q Load.W_u) (q Load.F_w) (q Load.Q_x) (q Load.P_c)
    (q Load.I) stage gamma_d.

(** The parameter set with load [x] at 1 and every other load at 0. *)
Definition unit_load (x y : Load.t) : float :=
  if Load.eqb x y then 1%float else 0%float.

(** What combination [i] of a stage makes of a unit of load [x] alone, for a
    non-critical member: the coefficient the engine gives [x] there. *)
Definition response (stage : string) (i : Z) (x : Load.t)
  : py_result combination :=
  list_getitem (compute_on (unit_load x) stage 1) i.

(** The number of combinations of a stage (it does not depend on the
    loads). *)
Definition combination_count (stage : string) : Z :=
  len (compute_on (fun _ => 0%float) stage 1).

(** The combinations are numbered through the stages: 1-5, 6-8, 9-12. *)
Definition combination_number (stage : string) (i : Z) : Z :=
  if stage =? "1" then i + 1
  else if stage =? "2" then combination_count "1" + i + 1
  else combination_count "1" + combination_count "2" + i + 1.

(* ================================================================== *)
(** * Criticality scaling *)

(** The combinations that carry the factor [gamma_d]: combination 2 of
    stage 1, combinations 6 and 7 of stage 2, combinations 9 and 10 of
    stage 3, by their position in the stage's list. *)
Definition gamma_d_subject (stage : string) (i : nat) : bool :=
  if stage =? "1" then (i =? 1)%nat
  else if stage =? "2" then (i =? 0)%nat || (i =? 1)%nat
  else if stage =? "3" then (i =? 0)%nat || (i =? 1)%nat
  else false.

(** Both components of the subject combinations multiplied by [k], the
    others left as they are; [i] is the position of the head of [l]. *)
Fixpoint scale_subject_from (stage : string) (k : float) (i : nat)
  (l : list combination) : list combination :=
  match l with
  | [] => []
  | c :: l' =>
      (if gamma_d_subject stage i then (k * fst c, k * snd c)%float else c)
      :: scale_subject_from stage k (S i) l'
  end.

Definition scale_subject (stage : string) (k : float) (l : list combination)
  : list combination :=
  scale_subject_from stage k 0 l.

(* ================================================================== *)
(** * Binary64 values *)

(** A float that is finite and not negative: what a thickness or a
    reinforcement percentage is. *)
Definition finite_nonneg (x : float) : Prop :=
  (0 <=? x)%float = true /\ (x <? infinity)%float = true.

(** The binary64 values 1.0 and 0.5 as sign, mantissa and exponent. *)
Definition SF_one : spec_float := S754_finite false 4503599627370496 (-52).
Definition SF_half : spec_float := S754_finite false 4503599627370496 (-53).

Definition SF_is_finite (x : spec_float) : bool :=
  match x with
  | S754_zero _ | S754_finite _ _ _ => true
  | _ => false
  end.

(** A mantissa shifted left by 52 bits: the product with the mantissa of
    [SF_one] or [SF_half]. *)
Definition shl52 (m : positive) : positive := Pos.mul 4503599627370496 m.

(* ================================================================== *)
(** * Facts about binary64 arithmetic *)

Section Binary64.

Lemma fexp_binary64 x : fexp prec emax x = Z.max (x - 53) (-1074).
Proof. reflexivity. Qed.

Lemma digits2_pos_shl52 m :
  Zpos (digits2_pos (shl52 m)) = (Zpos (digits2_pos m) + 52)%Z.
Proof. unfold shl52. cbn [Pos.mul digits2_pos]. lia. Qed.

Lemma digits2_pos_succ p :
  (Zpos (digits2_pos (Pos.succ p)) <= Zpos (digits2_pos p) + 1)%Z.
Proof.
  induction p as [p IH | p IH |]; cbn [Pos.succ digits2_pos]; lia.
Qed.

Lemma bounded_inv m e :
  bounded prec emax m e = true ->
  fexp prec emax (Zpos (digits2_pos m) + e) = e /\ (e <= 971)%Z.
Proof.
  unfold bounded, canonical_mantissa. intros H.
  apply andb_prop in H as [Hc He].
  apply Z.eqb_eq in Hc. apply Z.leb_le in He. split; [exact Hc | exact He].
Qed.

(** Rounding a value that already fits its exponent: nothing is shifted out
    and nothing overflows. *)
Lemma binary_round_aux_fits s q e :
  (0 <= q)%Z ->
  fexp prec emax (Zdigits2 q + e) = e ->
  (e <= 971)%Z ->
  binary_round_aux prec emax s q e loc_Exact
  = match q with
    | Zpos m => S754_finite s m e
    | _ => S754_zero s
    end.
Proof.
  intros Hq Hc He. unfold binary_round_aux, shr_fexp.
  rewrite Hc, Z.sub_diag.
  cbn [shr shr_record_of_loc shr_m loc_of_shr_record round_nearest_even].
  rewrite Hc, Z.sub_diag. cbn [shr shr_record_of_loc shr_m].
  destruct q as [| m | m]; [reflexivity | | lia].
  replace (e <=? emax - prec)%Z with true; [reflexivity |].
  symmetry. apply Z.leb_le. exact He.
Qed.

(** The 52 low zero bits of [shl52 m] are shifted out exactly. *)
Lemma binary_round_aux_shl52 s m e :
  fexp prec emax (Zpos (digits2_pos m) + e) = e ->
  binary_round_aux prec emax s (Zpos (shl52 m)) (-52 + e) loc_Exact
  = binary_round_aux prec emax s (Zpos m) e loc_Exact.
Proof.
  intros Hc. unfold binary_round_aux.
  assert (H1 : shr_fexp prec emax (Zpos (shl52 m)) (-52 + e) loc_Exact
               = shr_fexp prec emax (Zpos m) e loc_Exact).
  { unfold shr_fexp, Zdigits2. rewrite digits2_pos_shl52, Hc, Z.sub_diag.
    replace (fexp prec emax (Zpos (digits2_pos m) + 52 + (-52 + e))
             - (-52 + e))%Z
      with 52%Z by (rewrite fexp_binary64 in *; lia).
    unfold shr. f_equal. lia. }
  rewrite H1. reflexivity.
Qed.

(** At the least exponent one more bit goes: the last of the 53 shifts
    halves [m] itself. *)
Lemma shr_fexp_shl52_subnormal m :
  (Zpos (digits2_pos m) <= 53)%Z ->
  shr_fexp prec emax (Zpos (shl52 m)) (-53 + -1074) loc_Exact
  = (shr_1 {| shr_m := Zpos m; shr_r := false; shr_s := false |}, (-1074)%Z).
Proof.
  intros Hd. unfold shr_fexp, Zdigits2. rewrite digits2_pos_shl52.
  replace (fexp prec emax (Zpos (digits2_pos m) + 52 + (-53 + -1074))
           - (-53 + -1074))%Z
    with 53%Z by (rewrite fexp_binary64; lia).
  unfold shr. reflexivity.
Qed.

(** Multiplying by 1.0 is exact. *)
Lemma SFmul_one_l x :
  valid_binary x = true -> SF64mul SF_one x = x.
Proof.
  destruct x as [s | s | | s m e]; try reflexivity.
  intros Hv. apply bounded_inv in Hv as [Hc He].
  unfold SF64mul, SF_one, SFmul.
  change (xorb false s) with s.
  change (Pos.mul 4503599627370496 m) with (shl52 m).
  rewrite (binary_round_aux_shl52 s m e Hc).
  apply (binary_round_aux_fits s (Zpos m) e); [lia | exact Hc | exact He].
Qed.

(** Halving a finite value never overflows. *)
Lemma SFmul_half_finite s m e :
  bounded prec emax m e = true ->
  SF_is_finite (SF64mul SF_half (S754_finite s m e)) = true.
Proof.
  intros Hv. apply bounded_inv in Hv as [Hc He].
  unfold SF64mul, SF_half, SFmul.
  change (xorb false s) with s.
  change (Pos.mul 4503599627370496 m) with (shl52 m).
  rewrite fexp_binary64 in Hc.
  destruct (Z.eq_dec e (-1074)) as [-> | Hne].
  - (* the least exponent: one bit is shifted out and rounded *)
    assert (Hd : (Zpos (digits2_pos m) <= 53)%Z) by lia.
    unfold binary_round_aux.
    rewrite (shr_fexp_shl52_subnormal m Hd).
    set (q := round_nearest_even _ _).
    assert (Hq : (0 <= q)%Z /\ (Zdigits2 q <= 53)%Z).
    { subst q.
      destruct m as [p | p |];
        cbn [shr_1 shr_m orb loc_of_shr_record round_nearest_even
             digits2_pos] in *.
      - destruct (Z.even (Zpos p)); cbn [Z.add Zdigits2].
        + lia.
        + rewrite Pos.add_1_r. pose proof (digits2_pos_succ p). lia.
      - cbn [Zdigits2]. lia.
      - cbn. lia. }
    destruct Hq as [Hq0 Hqd].
    unfold shr_fexp.
    replace (fexp prec emax (Zdigits2 q + -1074) - -1074)%Z with 0%Z
      by (rewrite fexp_binary64; lia).
    cbn [shr shr_record_of_loc shr_m].
    destruct q; [reflexivity | reflexivity | lia].
  - replace (-53 + e)%Z with (-52 + (e - 1))%Z by lia.
    assert (Hc' : fexp prec emax (Zpos (digits2_pos m) + (e - 1)) = (e - 1)%Z)
      by (rewrite fexp_binary64; lia).
    rewrite (binary_round_aux_shl52 s m (e - 1) Hc').
    rewrite (binary_round_aux_fits s (Zpos m) (e - 1));
      [reflexivity | lia | exact Hc' | lia].
Qed.

(** Adding [+0.0] changes nothing, except that it turns [-0.0] into [+0.0]. *)
Lemma SFadd_zero_r x :
  x <> S754_zero true -> SF64add x (S754_zero false) = x.
Proof.
  destruct x as [[|] | s | | s m e]; intros H; try reflexivity.
  now contradiction H.
Qed.

(** Rounding with a positive sign never gives [-0.0]. *)
Lemma binary_round_aux_nonneg q e l :
  binary_round_aux prec emax false q e l <> S754_zero true.
Proof.
  unfold binary_round_aux.
  destruct (shr_fexp prec emax q e l) as [mrs' e'].
  destruct (shr_fexp prec emax _ e' loc_Exact) as [mrs'' e''].
  destruct (shr_m mrs''); [discriminate | | discriminate].
  destruct (e'' <=? emax - prec)%Z; discriminate.
Qed.

Lemma Prim2SF_one : Prim2SF 1 = SF_one.
Proof. vm_compute. reflexivity. Qed.

Lemma Prim2SF_half : Prim2SF 0.5 = SF_half.
Proof. vm_compute. reflexivity. Qed.

Lemma Prim2SF_zero : Prim2SF 0 = S754_zero false.
Proof. vm_compute. reflexivity. Qed.

Lemma Prim2SF_infinity : Prim2SF infinity = S754_infinity false.
Proof. vm_compute. reflexivity. Qed.

(** [1.0 * x] is [x], for every float [x]. *)
Lemma mul_1_l (x : float) : (1 * x)%float = x.
Proof.
  apply Prim2SF_inj. rewrite mul_spec, Prim2SF_one.
  apply SFmul_one_l, Prim2SF_valid.
Qed.

(** A finite float that is not negative is a zero or has a positive sign. *)
Lemma finite_nonneg_inv x :
  finite_nonneg x ->
  (exists s, Prim2SF x = S754_zero s) \/
  (exists m e, Prim2SF x = S754_finite false m e
               /\ bounded prec emax m e = true).
Proof.
  intros [H0 Hinf]. rewrite leb_spec, Prim2SF_zero in H0.
  rewrite ltb_spec, Prim2SF_infinity in Hinf.
  pose proof (Prim2SF_valid x) as Hv.
  destruct (Prim2SF x) as [s | s | | s m e].
  - left. exists s. reflexivity.
  - destruct s; discriminate.
  - discriminate.
  - destruct s; [discriminate |]. right. exists m, e.
    split; [reflexivity | exact Hv].
Qed.

(** Two floats with different bits are different. *)
Lemma float_neq (x y : float) : Leibniz.eqb x y = false -> x <> y.
Proof.
  intros H E. apply Leibniz.eqb_spec in E. rewrite E in H. discriminate H.
Qed.

End Binary64.

(* ================================================================== *)
(** * The concrete load estimator *)

Section Estimator.

Lemma concrete_load_zero_thickness r :
  finite_nonneg r -> calculate_concrete_load 0 r = 0%float.
Proof.
  intros Hr. apply Prim2SF_inj. unfold calculate_concrete_load.
  rewrite add_spec, !mul_spec, Prim2SF_half, Prim2SF_zero.
  destruct (finite_nonneg_inv r Hr) as [[s ->] | (m & e & -> & Hb)].
  - destruct s; vm_compute; reflexivity.
  - pose proof (SFmul_half_finite false m e Hb) as Hf.
    destruct (SF64mul SF_half (S754_finite false m e))
      as [[|] | | | [|] m' e'];
      try discriminate Hf; vm_compute; reflexivity.
Qed.

Lemma concrete_load_zero_reinforcement t :
  finite_nonneg t -> calculate_concrete_load t 0 = (24 * t)%float.
Proof.
  intros Ht. apply Prim2SF_inj. unfold calculate_concrete_load.
  rewrite add_spec, !mul_spec, Prim2SF_half, Prim2SF_zero.
  destruct (finite_nonneg_inv t Ht) as [[s ->] | (m & e & -> & Hb)].
  - destruct s; vm_compute; reflexivity.
  - change (SF64mul (SF64mul SF_half (S754_zero false)) (S754_finite false m e))
      with (S754_zero false).
    apply SFadd_zero_r.
    replace (Prim2SF 24) with (S754_finite false 6755399441055744 (-48))
      by (vm_compute; reflexivity).
    apply binary_round_aux_nonneg.
Qed.

(** C3, as the claim states it, fails on the specification's own example:
    for a thickness of 0.2 and 2.0 percent of reinforcement, both finite and
    not negative, the program returns 5.000000000000001, the float next above
    5.0, while [0.2 * (24 + 0.5 * 2.0)] is 5.0. *)
Lemma concrete_load_not_factored :
  finite_nonneg 0.2 /\ finite_nonneg 2.0 /\
  calculate_concrete_load 0.2 2.0 = 5.000000000000001%float /\
  (0.2 * (24 + 0.5 * 2.0))%float = 5.0%float /\
  calculate_concrete_load 0.2 2.0 <> (0.2 * (24 + 0.5 * 2.0))%float.
Proof.
  repeat split; try reflexivity.
  apply float_neq. vm_compute. reflexivity.
Qed.

(** C3, amended.  For all finite [thickness >= 0] and
    [reinforcement_percentage >= 0] the estimator returns
    [24 * thickness + (0.5 * reinforcement_percentage) * thickness], each
    operation rounded to binary64 (the factored form
    [thickness * (24 + 0.5 * reinforcement_percentage)] is the same real
    number but not always the same float); [estimate(0, r) = 0] and
    [estimate(t, 0) = 24 * t] hold exactly.  The function is total: it returns
    a float for every pair of floats. *)
Theorem concrete_load_estimate :
  forall t r : float,
    finite_nonneg t -> finite_nonneg r ->
    calculate_concrete_load t r = (24 * t + (0.5 * r) * t)%float /\
    calculate_concrete_load 0 r = 0%float /\
    calculate_concrete_load t 0 = (24 * t)%float.
Proof.
  intros t r Ht Hr. split; [reflexivity |]. split.
  - apply concrete_load_zero_thickness. exact Hr.
  - apply concrete_load_zero_reinforcement. exact Ht.
Qed.

Lemma concrete_load_estimate_witness :
  finite_nonneg 0.2 /\ finite_nonneg 2.0 /\
  calculate_concrete_load 0.2 2.0 = (24 * 0.2 + (0.5 * 2.0) * 0.2)%float /\
  calculate_concrete_load 0 2.0 = 0%float /\
  calculate_concrete_load 0.2 0 = (24 * 0.2)%float.
Proof.
  assert (H1 : finite_nonneg 0.2) by (split; reflexivity).
  assert (H2 : finite_nonneg 2.0) by (split; reflexivity).
  split; [exact H1 |]. split; [exact H2 |].
  exact (concrete_load_estimate 0.2 2.0 H1 H2).
Defined.

End Estimator.

(* ================================================================== *)
(** * The combination engine *)

Section Engine.

Variables G_f G_c Q_w Q_m Q_h W_s W_u F_w Q_x P_c I : float.

(** C1.  For every parameter set and every [gamma_d] (in particular 1.0 and
    1.3), [compute_combinations] at stage ["1"] returns exactly the five pairs
    of the stage-1 formula set, in order. *)
Theorem stage1_combinations :
  forall gamma_d : float,
    compute_combinations G_f G_c Q_w Q_m Q_h W_s W_u F_w Q_x P_c I "1" gamma_d
    = [ (1.35 * G_f, 0);
        (gamma_d * (1.2 * G_f + 1.5 * Q_w + 1.5 * Q_m + 1.0 * W_s),
         gamma_d * (1.5 * Q_h));
        (1.2 * G_f + 1.0 * W_u + 1.5 * F_w, 0);
        (0.9 * G_f + 1.0 * W_u + 1.5 * F_w, 0);
        (1.0 * G_f + 1.1 * I, 0) ]%float.
Proof.
  intros gamma_d. unfold compute_combinations.
  change ("1" =? "1") with true. cbv iota zeta. reflexivity.
Qed.

(** C2, the formula sets of stages 2 and 3, shared by the claim and its
    amended form. *)
Lemma stage2_stage3_combinations :
  forall gamma_d : float,
    compute_combinations G_f G_c Q_w Q_m Q_h W_s W_u F_w Q_x P_c I "2" gamma_d
    = [ (gamma_d * (1.35 * G_f + 1.35 * G_c), 0);
        (gamma_d * (1.2 * G_f + 1.2 * G_c + 1.5 * Q_w + 1.5 * Q_m + 1.0 * W_s
                    + 1.5 * F_w + 1.5 * Q_x + 1.0 * P_c),
         gamma_d * (1.5 * Q_h));
        (1.0 * G_f + 1.0 * G_c + 1.1 * I, 0) ]%float
    /\
    compute_combinations G_f G_c Q_w Q_m Q_h W_s W_u F_w Q_x P_c I "3" gamma_d
    = [ (gamma_d * (1.35 * G_f + 1.35 * G_c), 0);
        (gamma_d * (1.2 * G_f + 1.2 * G_c + 1.5 * Q_w + 1.5 * Q_m + 1.0 * W_s
                    + 1.5 * F_w + 1.5 * Q_x + 1.0 * P_c),
         gamma_d * (1.5 * Q_h));
        (1.2 * G_f + 1.2 * G_c + 1.0 * W_u, 0);
        (1.0 * G_f + 1.0 * G_c + 1.1 * I, 0) ]%float.
Proof.
  intros gamma_d. unfold compute_combinations. split.
  - change ("2" =? "1") with false. change ("2" =? "2") with true.
    cbv iota zeta. reflexivity.
  - change ("3" =? "1") with false. change ("3" =? "2") with false.
    change ("3" =? "3") with true. cbv iota zeta. reflexivity.
Qed.

(** C2, as the claim states it, fails in its example: with [G_f = 0.6],
    [G_c = 5.0], [Q_w = 2.0], [Q_m = 2.5] and every other load 0, the
    vertical components of stage 2 at [gamma_d = 1.3] are not
    9.828, 17.511, 5.6: the first one is 9.828000000000001. *)
Lemma stage2_example_not_9_828 :
  map fst (compute_combinations 0.6 5.0 2.0 2.5 0 0 0 0 0 0 0 "2" 1.3)
  = [9.828000000000001; 17.511; 5.6]%float
  /\
  map fst (compute_combinations 0.6 5.0 2.0 2.5 0 0 0 0 0 0 0 "2" 1.3)
  <> [9.828; 17.511; 5.6]%float.
Proof.
  split; [vm_compute; reflexivity |].
  intros H. apply (f_equal (hd 0%float)) in H. revert H. apply float_neq.
  vm_compute. reflexivity.
Qed.

(** C2, amended.  For every parameter set and every [gamma_d],
    [compute_combinations] returns exactly the three pairs of the stage-2
    formula set at stage ["2"] and the four pairs of the stage-3 formula set
    at stage ["3"]; in the example ([G_f = 0.6], [G_c = 5.0], [Q_w = 2.0],
    [Q_m = 2.5], every other load 0, stage 2, [gamma_d = 1.3]) the vertical
    components are 9.828000000000001, 17.511 and 5.6, the first being the
    float next above 9.828, and the horizontal components are 0. *)
Theorem stage2_stage3_combinations_and_example :
  forall gamma_d : float,
    (compute_combinations G_f G_c Q_w Q_m Q_h W_s W_u F_w Q_x P_c I "2" gamma_d
     = [ (gamma_d * (1.35 * G_f + 1.35 * G_c), 0);
         (gamma_d * (1.2 * G_f + 1.2 * G_c + 1.5 * Q_w + 1.5 * Q_m + 1.0 * W_s
                     + 1.5 * F_w + 1.5 * Q_x + 1.0 * P_c),
          gamma_d * (1.5 * Q_h));
         (1.0 * G_f + 1.0 * G_c + 1.1 * I, 0) ]%float)
    /\
    (compute_combinations G_f G_c Q_w Q_m Q_h W_s W_u F_w Q_x P_c I "3" gamma_d
     = [ (gamma_d * (1.35 * G_f + 1.35 * G_c), 0);
         (gamma_d * (1.2 * G_f + 1.2 * G_c + 1.5 * Q_w + 1.5 * Q_m + 1.0 * W_s
                     + 1.5 * F_w + 1.5 * Q_x + 1.0 * P_c),
          gamma_d * (1.5 * Q_h));
         (1.2 * G_f + 1.2 * G_c + 1.0 * W_u, 0);
         (1.0 * G_f + 1.0 * G_c + 1.1 * I, 0) ]%float)
    /\
    compute_combinations 0.6 5.0 2.0 2.5 0 0 0 0 0 0 0 "2" 1.3
    = [ (9.828000000000001, 0); (17.511, 0); (5.6, 0) ]%float
    /\
    9.828000000000001%float = next_up 9.828.
Proof.
  intros gamma_d.
  destruct (stage2_stage3_combinations gamma_d) as [H2 H3].
  split; [exact H2 |]. split; [exact H3 |].
  split; vm_compute; reflexivity.
Qed.

(** The list at [gamma_d = 1.3] is the list at [gamma_d = 1.0] with the
    subject combinations scaled, for every stage string. *)
Lemma scaled_list_at_1_3 :
  forall stage : string,
    compute_combinations G_f G_c Q_w Q_m Q_h W_s W_u F_w Q_x P_c I stage 1.3
    = scale_subject stage 1.3
        (compute_combinations G_f G_c Q_w Q_m Q_h W_s W_u F_w Q_x P_c I
           stage 1.0).
Proof.
  intros stage. unfold compute_combinations, scale_subject.
  destruct (stage =? "1") eqn:E1;
    [| destruct (stage =? "2") eqn:E2; [| destruct (stage =? "3") eqn:E3]];
    cbv iota zeta; cbn [scale_subject_from]; unfold gamma_d_subject;
    rewrite ?E1, ?E2, ?E3;
    cbn [Nat.eqb orb fst snd]; rewrite ?mul_1_l; reflexivity.
Qed.

(** C4.  For every parameter set and every stage, the list computed at
    [gamma_d = 1.3] is the list computed at [gamma_d = 1.0] with both
    components of each [gamma_d]-subject combination (2 of stage 1; 6 and 7 of
    stage 2; 9 and 10 of stage 3) multiplied by 1.3, and every other
    combination (1, 3, 4, 5; 8; 11, 12) unchanged.  The lists are there: at
    each of the three stages the engine returns, at [gamma_d = 1.0], its 5, 3
    or 4 combinations with the subject ones at their unfactored sums, and at
    [gamma_d = 1.3] the same combinations with exactly those sums multiplied
    by 1.3. *)
Theorem gamma_d_scaling :
  (forall stage : string,
      compute_combinations G_f G_c Q_w Q_m Q_h W_s W_u F_w Q_x P_c I stage 1.3
      = scale_subject stage 1.3
          (compute_combinations G_f G_c Q_w Q_m Q_h W_s W_u F_w Q_x P_c I
             stage 1.0))
  /\
  (exists c1 c3 c4 c5 : combination,
      compute_combinations G_f G_c Q_w Q_m Q_h W_s W_u F_w Q_x P_c I "1" 1.0
      = [ c1;
          (1.2 * G_f + 1.5 * Q_w + 1.5 * Q_m + 1.0 * W_s, 1.5 * Q_h)%float;
          c3; c4; c5 ] /\
      compute_combinations G_f G_c Q_w Q_m Q_h W_s W_u F_w Q_x P_c I "1" 1.3
      = [ c1;
          (1.3 * (1.2 * G_f + 1.5 * Q_w + 1.5 * Q_m + 1.0 * W_s),
           1.3 * (1.5 * Q_h))%float;
          c3; c4; c5 ])
  /\
  (exists c8 : combination,
      compute_combinations G_f G_c Q_w Q_m Q_h W_s W_u F_w Q_x P_c I "2" 1.0
      = [ (1.35 * G_f + 1.35 * G_c, 0)%float;
          (1.2 * G_f + 1.2 * G_c + 1.5 * Q_w + 1.5 * Q_m + 1.0 * W_s
           + 1.5 * F_w + 1.5 * Q_x + 1.0 * P_c, 1.5 * Q_h)%float;
          c8 ] /\
      compute_combinations G_f G_c Q_w Q_m Q_h W_s W_u F_w Q_x P_c I "2" 1.3
      = [ (1.3 * (1.35 * G_f + 1.35 * G_c), 1.3 * 0)%float;
          (1.3 * (1.2 * G_f + 1.2 * G_c + 1.5 * Q_w + 1.5 * Q_m + 1.0 * W_s
                  + 1.5 * F_w + 1.5 * Q_x + 1.0 * P_c),
           1.3 * (1.5 * Q_h))%float;
          c8 ])
  /\
  (exists c11 c12 : combination,
      compute_combinations G_f G_c Q_w Q_m Q_h W_s W_u F_w Q_x P_c I "3" 1.0
      = [ (1.35 * G_f + 1.35 * G_c, 0)%float;
          (1.2 * G_f + 1.2 * G_c + 1.5 * Q_w + 1.5 * Q_m + 1.0 * W_s
           + 1.5 * F_w + 1.5 * Q_x + 1.0 * P_c, 1.5 * Q_h)%float;
          c11; c12 ] /\
      compute_combinations G_f G_c Q_w Q_m Q_h W_s W_u F_w Q_x P_c I "3" 1.3
      = [ (1.3 * (1.35 * G_f + 1.35 * G_c), 1.3 * 0)%float;
          (1.3 * (1.2 * G_f + 1.2 * G_c + 1.5 * Q_w + 1.5 * Q_m + 1.0 * W_s
                  + 1.5 * F_w + 1.5 * Q_x + 1.0 * P_c),
           1.3 * (1.5 * Q_h))%float;
          c11; c12 ]).
Proof.
  split; [exact scaled_list_at_1_3 |].
  unfold compute_combinations.
  change ("1" =? "1") with true. change ("2" =? "1") with false.
  change ("2" =? "2") with true. change ("3" =? "1") with false.
  change ("3" =? "2") with false. change ("3" =? "3") with true.
  cbv iota zeta.
  rewrite (mul_1_l (1.2 * G_f + 1.5 * Q_w + 1.5 * Q_m + 1.0 * W_s)),
          (mul_1_l (1.5 * Q_h)),
          (mul_1_l (1.35 * G_f + 1.35 * G_c)),
          (mul_1_l (1.2 * G_f + 1.2 * G_c + 1.5 * Q_w + 1.5 * Q_m + 1.0 * W_s
                    + 1.5 * F_w + 1.5 * Q_x + 1.0 * P_c)).
  split; [| split].
  - exists (1.35 * G_f, 0)%float, (1.2 * G_f + 1.0 * W_u + 1.5 * F_w, 0)%float,
      (0.9 * G_f + 1.0 * W_u + 1.5 * F_w, 0)%float,
      (1.0 * G_f + 1.1 * I, 0)%float.
    split; reflexivity.
  - exists (1.0 * G_f + 1.0 * G_c + 1.1 * I, 0)%float. split; reflexivity.
  - exists (1.2 * G_f + 1.2 * G_c + 1.0 * W_u, 0)%float,
      (1.0 * G_f + 1.0 * G_c + 1.1 * I, 0)%float.
    split; reflexivity.
Qed.

(** Off the second position of a stage's list the horizontal component is
    the literal zero of the source. *)
Lemma horizontal_zero_off_second :
  forall (gamma_d : float) (stage : string) (i : nat) (c : combination),
    nth_error
      (compute_combinations G_f G_c Q_w Q_m Q_h W_s W_u F_w Q_x P_c I
         stage gamma_d) i = Some c ->
    i <> 1%nat -> snd c = 0%float.
Proof.
  intros gamma_d stage i c H Hi. unfold compute_combinations in H.
  destruct (stage =? "1");
    [| destruct (stage =? "2"); [| destruct (stage =? "3")]];
    cbv iota zeta in H.
  all: destruct i as [| [| [| [| [| i]]]]]; cbn [nth_error] in H;
       try (now contradiction Hi); try discriminate H;
       try (injection H as <-; reflexivity).
  all: destruct i; discriminate H.
Qed.

(** C5.  For every parameter set and every [gamma_d], there are exactly 5, 3
    and 4 combinations at stages 1, 2 and 3; at every stage the horizontal
    component of each combination other than the second of the list
    (combination 2, 7 or 10) is zero; and that one can be non-zero. *)
Theorem combination_counts_and_horizontal :
  forall gamma_d : float,
    len (compute_combinations G_f G_c Q_w Q_m Q_h W_s W_u F_w Q_x P_c I
           "1" gamma_d) = 5%Z
    /\
    len (compute_combinations G_f G_c Q_w Q_m Q_h W_s W_u F_w Q_x P_c I
           "2" gamma_d) = 3%Z
    /\
    len (compute_combinations G_f G_c Q_w Q_m Q_h W_s W_u F_w Q_x P_c I
           "3" gamma_d) = 4%Z
    /\
    (forall (stage : string) (i : nat) (c : combination),
        nth_error
          (compute_combinations G_f G_c Q_w Q_m Q_h W_s W_u F_w Q_x P_c I
             stage gamma_d) i = Some c ->
        i <> 1%nat -> snd c = 0%float)
    /\
    (forall stage : string, In stage ["1"; "2"; "3"] ->
        nth_error (compute_combinations 0 0 0 0 1 0 0 0 0 0 0 stage 1.3) 1
        = Some (0, 1.9500000000000002)%float
        /\ 1.9500000000000002%float <> 0%float).
Proof.
  intros gamma_d.
  split; [reflexivity |]. split; [reflexivity |]. split; [reflexivity |].
  split; [exact (horizontal_zero_off_second gamma_d) |].
  intros stage Hs. split.
  - destruct Hs as [<- | [<- | [<- | []]]]; vm_compute; reflexivity.
  - apply float_neq. vm_compute. reflexivity.
Qed.

(** C6.  For every parameter set, every [gamma_d] and every stage identifier
    other than the three defined ones, [compute_combinations] returns the
    empty list; it does not raise. *)
Theorem unknown_stage_empty :
  forall (stage : string) (gamma_d : float),
    ~ In stage ["1"; "2"; "3"] ->
    compute_combinations G_f G_c Q_w Q_m Q_h W_s W_u F_w Q_x P_c I stage gamma_d
    = [].
Proof.
  intros stage gamma_d Hn. unfold compute_combinations.
  destruct (String.eqb_spec stage "1") as [-> | _];
    [exfalso; apply Hn; cbn; auto |].
  destruct (String.eqb_spec stage "2") as [-> | _];
    [exfalso; apply Hn; cbn; auto |].
  destruct (String.eqb_spec stage "3") as [-> | _];
    [exfalso; apply Hn; cbn; auto |].
  reflexivity.
Qed.

Variables G_c' Q_x' P_c' W_u' : float.

(** C10.  For every [gamma_d], the stage-1 list does not depend on [G_c],
    [Q_x] and [P_c]: two parameter sets that agree on the other loads give
    equal lists; and the stage-2 list does not depend on [W_u]. *)
Theorem unused_loads_do_not_interfere :
  forall gamma_d : float,
    compute_combinations G_f G_c Q_w Q_m Q_h W_s W_u F_w Q_x P_c I "1" gamma_d
    = compute_combinations G_f G_c' Q_w Q_m Q_h W_s W_u F_w Q_x' P_c' I
        "1" gamma_d
    /\
    compute_combinations G_f G_c Q_w Q_m Q_h W_s W_u F_w Q_x P_c I "2" gamma_d
    = compute_combinations G_f G_c Q_w Q_m Q_h W_s W_u' F_w Q_x P_c I
        "2" gamma_d.
Proof.
  intros gamma_d. split; reflexivity.
Qed.

End Engine.

Lemma combination_counts_and_horizontal_witness :
  nth_error (compute_combinations 0.6 5.0 1.0 2.5 0.5 0 0.4 0 0 0 0 "3" 1.3) 2
  = Some (7.12, 0)%float
  /\ 2%nat <> 1%nat
  /\ snd (7.12, 0)%float = 0%float.
Proof.
  assert (H : nth_error
    (compute_combinations 0.6 5.0 1.0 2.5 0.5 0 0.4 0 0 0 0 "3" 1.3) 2
    = Some (7.12, 0)%float) by (vm_compute; reflexivity).
  assert (N : 2%nat <> 1%nat) by (intros E; discriminate E).
  split; [exact H |]. split; [exact N |].
  exact (proj1 (proj2 (proj2 (proj2
           (combination_counts_and_horizontal
              0.6 5.0 1.0 2.5 0.5 0 0.4 0 0 0 0 1.3))))
           "3" 2%nat _ H N).
Defined.

Lemma unknown_stage_empty_witness :
  ~ In "4" ["1"; "2"; "3"] /\
  compute_combinations 0.6 5.0 1.0 2.5 0.5 0 0.4 0 0 0 0 "4" 1.3 = [].
Proof.
  assert (Hn : ~ In "4" ["1"; "2"; "3"]).
  { cbn. intros [H | [H | [H | []]]]; discriminate H. }
  split; [exact Hn |].
  exact (unknown_stage_empty 0.6 5.0 1.0 2.5 0.5 0 0.4 0 0 0 0 "4" 1.3 Hn).
Defined.

(* ================================================================== *)
(** * The combination catalog *)

Section Catalog.

(** The stages and their numbers of combinations. *)
Let stage_counts : list (string * Z) := [("1", 5%Z); ("2", 3%Z); ("3", 4%Z)].

Lemma descriptions_of_stage stage n :
  In (stage, n) stage_counts ->
  exists ds, descriptions_of stage = Some ds /\ len ds = n.
Proof.
  intros [H | [H | [H | []]]]; injection H as <- <-;
    eexists; split; reflexivity.
Qed.

Lemma descriptions_of_unknown stage :
  ~ In stage ["1"; "2"; "3"] -> descriptions_of stage = None.
Proof.
  intros Hn. unfold descriptions_of.
  destruct (String.eqb_spec stage "1") as [-> | _];
    [exfalso; apply Hn; cbn; auto |].
  destruct (String.eqb_spec stage "2") as [-> | _];
    [exfalso; apply Hn; cbn; auto |].
  destruct (String.eqb_spec stage "3") as [-> | _];
    [exfalso; apply Hn; cbn; auto |].
  reflexivity.
Qed.

Lemma stage_counts_known stage n :
  In (stage, n) stage_counts -> In stage ["1"; "2"; "3"].
Proof.
  intros [H | [H | [H | []]]]; injection H as <- <-; cbn; auto.
Qed.

(** A subscript returns exactly for the indices from [-len(l)] to
    [len(l) - 1]. *)
Lemma list_getitem_returns {A : Type} (l : list A) (i : Z) :
  (exists a, list_getitem l i = Returns a) <-> (- len l <= i < len l)%Z.
Proof.
  unfold list_getitem, len.
  destruct (Z.ltb_spec i 0) as [Hi | Hi].
  - destruct (Z.ltb_spec (i + Z.of_nat (List.length l)) 0) as [Hj | Hj].
    + split; [intros [a H]; discriminate H | lia].
    + destruct (nth_error l (Z.to_nat (i + Z.of_nat (List.length l))))
        as [a |] eqn:E.
      * split; [lia | intros _; exists a; reflexivity].
      * apply nth_error_None in E. lia.
  - destruct (Z.ltb_spec i 0) as [Hj | Hj]; [lia |].
    destruct (nth_error l (Z.to_nat i)) as [a |] eqn:E.
    + assert (Hlt : (Z.to_nat i < List.length l)%nat)
        by (apply nth_error_Some; rewrite E; discriminate).
      split; [lia | intros _; exists a; reflexivity].
    + apply nth_error_None in E.
      split; [intros [a H]; discriminate H | lia].
Qed.

(** C8.  For each of the three stages and every index at or beyond its
    number of combinations (5, 3, 4), the catalog returns the label
    [Combination N] with [N = index + 1]; it does not raise. *)
Theorem description_fallback :
  forall (stage : string) (n index : Z),
    In (stage, n) [("1", 5%Z); ("2", 3%Z); ("3", 4%Z)] ->
    (n <= index)%Z ->
    get_combination_description stage index
    = Returns ("Combination " ++ str_of_int (index + 1)).
Proof.
  intros stage n index Hs Hi.
  destruct (descriptions_of_stage stage n Hs) as (ds & Hds & Hlen).
  unfold get_combination_description. rewrite Hds, Hlen.
  destruct (Z.ltb_spec index n) as [Hlt | _]; [lia | reflexivity].
Qed.

Lemma description_fallback_witness :
  In ("2", 3%Z) [("1", 5%Z); ("2", 3%Z); ("3", 4%Z)] /\ (3 <= 3)%Z /\
  get_combination_description "2" 3 = Returns "Combination 4".
Proof.
  assert (Hs : In ("2", 3%Z) [("1", 5%Z); ("2", 3%Z); ("3", 4%Z)])
    by (cbn; auto).
  assert (Hi : (3 <= 3)%Z) by lia.
  split; [exact Hs |]. split; [exact Hi |].
  exact (description_fallback "2" 3 3 Hs Hi).
Defined.

(** For a defined stage with [n] labels the catalog returns a label exactly
    for the indices [index >= -n]; for any other stage it raises
    [UnboundLocalError] at every index. *)
Lemma description_returns_iff :
  forall (stage : string) (index : Z),
    ((exists label, get_combination_description stage index = Returns label)
     <->
     (exists n, In (stage, n) [("1", 5%Z); ("2", 3%Z); ("3", 4%Z)]
                /\ (- n <= index)%Z))
    /\
    (~ In stage ["1"; "2"; "3"] ->
     get_combination_description stage index = Raises UnboundLocalError).
Proof.
  intros stage index. split.
  - split.
    + intros [label H].
      destruct (in_dec string_dec stage ["1"; "2"; "3"]) as [Hs | Hn].
      * assert (Hc : exists n, In (stage, n) stage_counts).
        { destruct Hs as [<- | [<- | [<- | []]]];
            [exists 5%Z | exists 3%Z | exists 4%Z]; cbn; auto. }
        destruct Hc as [n Hc]. exists n. split; [exact Hc |].
        destruct (descriptions_of_stage stage n Hc) as (ds & Hds & Hlen).
        assert (Hn0 : (0 <= n)%Z) by (unfold len in Hlen; lia).
        unfold get_combination_description in H. rewrite Hds, Hlen in H.
        destruct (Z.ltb_spec index n) as [Hlt | Hge]; [| lia].
        assert (Hr : exists a, list_getitem ds index = Returns a)
          by (exists label; exact H).
        apply list_getitem_returns in Hr. lia.
      * unfold get_combination_description in H.
        rewrite (descriptions_of_unknown stage Hn) in H. discriminate H.
    + intros (n & Hc & Hi).
      destruct (descriptions_of_stage stage n Hc) as (ds & Hds & Hlen).
      unfold get_combination_description. rewrite Hds, Hlen.
      destruct (Z.ltb_spec index n) as [Hlt | Hge].
      * apply list_getitem_returns. lia.
      * eexists. reflexivity.
  - intros Hn. unfold get_combination_description.
    rewrite (descriptions_of_unknown stage Hn). reflexivity.
Qed.

(** No label of the catalog is a fallback label. *)
Lemma fallback_only_beyond (stage : string) (n index : Z) :
  In (stage, n) stage_counts -> (0 <= index < n)%Z ->
  get_combination_description stage index
  <> Returns ("Combination " ++ str_of_int (index + 1)).
Proof.
  intros Hs Hi.
  destruct Hs as [H | [H | [H | []]]]; injection H as <- <-.
  - assert (E : index = 0%Z \/ index = 1%Z \/ index = 2%Z \/ index = 3%Z
                \/ index = 4%Z) by lia.
    destruct E as [-> | [-> | [-> | [-> | ->]]]]; intros E; discriminate E.
  - assert (E : index = 0%Z \/ index = 1%Z \/ index = 2%Z) by lia.
    destruct E as [-> | [-> | ->]]; intros E; discriminate E.
  - assert (E : index = 0%Z \/ index = 1%Z \/ index = 2%Z \/ index = 3%Z)
      by lia.
    destruct E as [-> | [-> | [-> | ->]]]; intros E; discriminate E.
Qed.

(** C9.  The catalog is defined only for the three recognized stages.  For
    any other stage it raises [UnboundLocalError] at every index, so the
    [Combination N] fallback is returned only at an out-of-range index of a
    recognized stage; and at every index [index >= 0] (a position, as every
    caller passes) the catalog returns a label if and only if the stage is
    one of the three defined identifiers. *)
Theorem description_defined_iff :
  forall (stage : string) (index : Z),
    (0 <= index)%Z ->
    ((exists label, get_combination_description stage index = Returns label)
     <-> In stage ["1"; "2"; "3"])
    /\
    (~ In stage ["1"; "2"; "3"] ->
     forall i : Z,
       get_combination_description stage i = Raises UnboundLocalError)
    /\
    (get_combination_description stage index
     = Returns ("Combination " ++ str_of_int (index + 1))
     <->
     exists n, In (stage, n) [("1", 5%Z); ("2", 3%Z); ("3", 4%Z)]
               /\ (n <= index)%Z).
Proof.
  intros stage index Hi.
  assert (Hcount : In stage ["1"; "2"; "3"] ->
                   exists n, In (stage, n) stage_counts /\ (0 <= n)%Z).
  { intros [<- | [<- | [<- | []]]];
      [exists 5%Z | exists 3%Z | exists 4%Z]; split; cbn; auto; lia. }
  split; [| split].
  - split.
    + intros Hl.
      apply (proj1 (description_returns_iff stage index)) in Hl
        as (n & Hs & _).
      exact (stage_counts_known stage n Hs).
    + intros Hs. destruct (Hcount Hs) as (n & Hn & Hn0).
      apply (proj1 (description_returns_iff stage index)).
      exists n. split; [exact Hn | lia].
  - intros Hn i. exact (proj2 (description_returns_iff stage i) Hn).
  - split.
    + intros Hf.
      assert (Hl : exists label,
                 get_combination_description stage index = Returns label)
        by (eexists; exact Hf).
      apply (proj1 (description_returns_iff stage index)) in Hl
        as (n & Hs & _).
      exists n. split; [exact Hs |].
      destruct (Z.le_gt_cases n index) as [Hle | Hgt]; [exact Hle |].
      exfalso.
      exact (fallback_only_beyond stage n index Hs (conj Hi Hgt) Hf).
    + intros (n & Hs & Hle).
      destruct (descriptions_of_stage stage n Hs) as (ds & Hds & Hlen).
      unfold get_combination_description. rewrite Hds, Hlen.
      destruct (Z.ltb_spec index n) as [Hlt | _]; [lia | reflexivity].
Qed.

Lemma description_defined_iff_witness :
  (0 <= 7)%Z /\
  ((exists label, get_combination_description "1" 7 = Returns label)
   <-> In "1" ["1"; "2"; "3"])
  /\
  (~ In "1" ["1"; "2"; "3"] ->
   forall i : Z, get_combination_description "1" i = Raises UnboundLocalError)
  /\
  (get_combination_description "1" 7
   = Returns ("Combination " ++ str_of_int (7 + 1))
   <->
   exists n, In ("1", n) [("1", 5%Z); ("2", 3%Z); ("3", 4%Z)]
             /\ (n <= 7)%Z).
Proof.
  assert (Hi : (0 <= 7)%Z) by lia.
  split; [exact Hi |].
  exact (description_defined_iff "1" 7 Hi).
Defined.

(** What alignment means for one load [x]: the engine's response to a unit of
    [x] is the coefficient the label gives [x], in one of the two components,
    and zero when the label does not list [x]. *)
Let agrees (terms : list (float * Load.t)) (r : py_result combination)
  (x : Load.t) : Prop :=
  exists v h : float,
    r = Returns (v, h) /\
    match coefficient terms x with
    | Some c =>
        c <> 0%float /\ ((v, h) = (c, 0%float) \/ (v, h) = (0%float, c))
    | None => (v, h) = (0%float, 0%float)
    end.

Ltac agree_at :=
  match goal with
  | |- agrees ?ts ?r ?x =>
      let rv := eval vm_compute in r in
      match rv with
      | Returns (?v, ?h) =>
          exists v, h; split; [vm_compute; reflexivity |];
          let cv := eval vm_compute in (coefficient ts x) in
          change (coefficient ts x) with cv; cbv iota beta;
          first
            [ reflexivity
            | split;
              [ apply float_neq; vm_compute; reflexivity
              | first [ left; reflexivity | right; reflexivity ] ] ]
      end
  end.

Ltac aligned_at :=
  match goal with
  | |- exists label terms, get_combination_description ?s ?i = _ /\ _ =>
      let d := eval vm_compute in (get_combination_description s i) in
      match d with
      | Returns ?l =>
          let p := eval vm_compute in (parse_label l) in
          match p with
          | Some (_, ?ts) =>
              exists l, ts;
              split; [vm_compute; reflexivity |];
              split; [vm_compute; reflexivity |];
              split;
              [ cbn [map snd];
                repeat (constructor;
                        [cbn [In]; intuition discriminate |]);
                constructor
              | intros x; destruct x; agree_at ]
          end
      end
  end.

(** C7.  For every stage and every valid index [i] of that stage, the label
    the catalog returns at [(stage, i)] reads back as the number of the
    combination the engine computes at position [i] and as the terms of that
    combination: every load has in the label the coefficient it has in the
    engine, and a load the engine does not use is not in the label. *)
Theorem catalog_aligned :
  forall (stage : string) (i : Z),
    In stage ["1"; "2"; "3"] ->
    (0 <= i < combination_count stage)%Z ->
    exists (label : string) (terms : list (float * Load.t)),
      get_combination_description stage i = Returns label /\
      parse_label label = Some (combination_number stage i, terms) /\
      NoDup (map snd terms) /\
      forall x : Load.t,
        exists v h : float,
          response stage i x = Returns (v, h) /\
          match coefficient terms x with
          | Some c =>
              c <> 0%float /\
              ((v, h) = (c, 0%float) \/ (v, h) = (0%float, c))
          | None => (v, h) = (0%float, 0%float)
          end.
Proof.
  intros stage i Hs Hi.
  change (exists label terms,
             get_combination_description stage i = Returns label /\
             parse_label label = Some (combination_number stage i, terms) /\
             NoDup (map snd terms) /\
             forall x, agrees terms (response stage i x) x).
  destruct Hs as [<- | [<- | [<- | []]]].
  - change (combination_count "1") with 5%Z in Hi.
    assert (E : i = 0%Z \/ i = 1%Z \/ i = 2%Z \/ i = 3%Z \/ i = 4%Z) by lia.
    destruct E as [-> | [-> | [-> | [-> | ->]]]]; aligned_at.
  - change (combination_count "2") with 3%Z in Hi.
    assert (E : i = 0%Z \/ i = 1%Z \/ i = 2%Z) by lia.
    destruct E as [-> | [-> | ->]]; aligned_at.
  - change (combination_count "3") with 4%Z in Hi.
    assert (E : i = 0%Z \/ i = 1%Z \/ i = 2%Z \/ i = 3%Z) by lia.
    destruct E as [-> | [-> | [-> | ->]]]; aligned_at.
Qed.

Lemma catalog_aligned_witness :
  In "2" ["1"; "2"; "3"] /\ (0 <= 1 < combination_count "2")%Z /\
  exists (label : string) (terms : list (float * Load.t)),
    get_combination_description "2" 1 = Returns label /\
    parse_label label = Some (combination_number "2" 1, terms) /\
    NoDup (map snd terms) /\
    forall x : Load.t,
      exists v h : float,
        response "2" 1 x = Returns (v, h) /\
        match coefficient terms x with
        | Some c =>
            c <> 0%float /\
            ((v, h) = (c, 0%float) \/ (v, h) = (0%float, c))
        | None => (v, h) = (0%float, 0%float)
        end.
Proof.
  assert (Hs : In "2" ["1"; "2"; "3"]) by (cbn; auto).
  assert (Hi : (0 <= 1 < combination_count "2")%Z)
    by (change (combination_count "2") with 3%Z; lia).
  split; [exact Hs |]. split; [exact Hi |].
  exact (catalog_aligned "2" 1 Hs Hi).
Defined.

End Catalog.

(* ================================================================== *)
(** * Presentation: the results table, the results of a run, the report's
      parameter table

    The rest of [app.py] that computes: [create_results_dataframe], the part
    of [main] that fills [results] and shows it, and the loop of
    [generate_pdf_report] that lays the input parameters out in rows.  What
    these hand to Streamlit, pandas and ReportLab is modelled by its content:
    a data frame is the list of its rows, a ReportLab table the list of its
    rows of cells. *)

(** [x = yield c; k x] for a computation that may raise. *)
Definition bind {A B : Type} (c : py_result A) (k : A -> py_result B)
  : py_result B :=
  match c with
  | Returns a => k a
  | Raises e => Raises e
  end.

(** [s.replace(old, new)] for a non-empty [old]: every occurrence of [old],
    found from the left and not overlapping, becomes [new].  [skip] counts
    the characters of an occurrence still to be passed over. *)
Fixpoint replace_from (old new : string) (skip : nat) (s : string) : string :=
  match s with
  | EmptyString => EmptyString
  | String c s' =>
      match skip with
      | S k => replace_from old new k s'
      | O =>
          if prefix old s
          then new ++ replace_from old new (String.length old - 1) s'
          else String c (replace_from old new 0 s')
      end
  end.

Definition str_replace (old new s : string) : string :=
  replace_from old new 0 s.

(** The integer nearest to [n / d] for [n >= 0] and [d > 0], a tie going to
    the even one. *)
Definition round_half_even (n d : Z) : Z :=
  let q := (n / d)%Z in
  let r := (n mod d)%Z in
  match (2 * r ?= d)%Z with
  | Lt => q
  | Gt => (q + 1)%Z
  | Eq => if Z.even q then q else (q + 1)%Z
  end.

(** [m * 2^e * 10^digits] rounded to an integer: the digits of a finite
    float to [digits] decimal places. *)
Definition scaled_magnitude (digits : nat) (m : positive) (e : Z) : Z :=
  let n := (Zpos m * 10 ^ Z.of_nat digits)%Z in
  if (0 <=? e)%Z then (n * 2 ^ e)%Z else round_half_even n (2 ^ (- e)).

Fixpoint zeros (n : nat) : string :=
  match n with
  | O => ""
  | S n' => String "0" (zeros n')
  end.

(** A scaled integer written with [digits] decimal places. *)
Definition render_fixed (digits : nat) (q : Z) : string :=
  let p := (10 ^ Z.of_nat digits)%Z in
  let frac := str_of_int (q mod p) in
  match digits with
  | O => str_of_int q
  | _ =>
      str_of_int (q / p) ++ "."
      ++ zeros (digits - String.length frac) ++ frac
  end.

(** [f"{x:.Nf}"] for a float [x]: the exact binary value of [x] rounded to
    [N] decimal places, ties to even; the sign of the float is kept, also
    for zero. *)
Definition format_fixed (digits : nat) (x : float) : string :=
  match Prim2SF x with
  | S754_nan => "nan"
  | S754_infinity s => (if s then "-" else "") ++ "inf"
  | S754_zero s => (if s then "-" else "") ++ render_fixed digits 0
  | S754_finite s m e =>
      (if s then "-" else "") ++ render_fixed digits (scaled_magnitude digits m e)
  end.

(** One row of the data frame: the dictionary [create_results_dataframe]
    appends, by its four keys (the combination, the vertical load, the
    horizontal load, gamma_d). *)
Record dataframe_row : Type := {
  row_combination : string;
  row_vertical : string;
  row_horizontal : string;
  row_gamma_d : string
}.

(** The loop of [create_results_dataframe] (app.py, lines 91-98) from
    position [i] of [enumerate(combinations)] on. *)
Fixpoint dataframe_rows_from (i : Z) (combinations : list combination)
  (stage : string) (gamma_d : float) : py_result (list dataframe_row) :=
  match combinations with
  | [] => Returns []
  | (vertical, horizontal) :: rest =>
      bind (get_combination_description stage i) (fun d =>
      let desc := str_replace "</sub>" "" (str_replace "<sub>" "" d) in
      let r := {| row_combination := desc;
                  row_vertical := format_fixed 2 vertical;
                  row_horizontal := format_fixed 2 horizontal;
                  row_gamma_d := format_fixed 1 gamma_d |} in
      bind (dataframe_rows_from (i + 1) rest stage gamma_d) (fun data =>
      Returns (r :: data)))
  end.

(** [create_results_dataframe(combinations, stage, gamma_d)] (app.py, lines
    88-99); the data frame is the list [data] it is built from. *)
Definition create_results_dataframe (combinations : list combination)
  (stage : string) (gamma_d : float) : py_result (list dataframe_row) :=
  dataframe_rows_from 0 combinations stage gamma_d.

(** The value of one stage in the dictionary [results] of [main]. *)
Record stage_result : Type := {
  description : string;
  critical : list combination;
  non_critical : list combination
}.

(** [d.get(k)] on a dictionary kept as the list of its items, in insertion
    order. *)
Fixpoint dict_get {A : Type} (d : list (string * A)) (k : string) : option A :=
  match d with
  | [] => None
  | (k', v) :: d' => if k' =? k then Some v else dict_get d' k
  end.

(** What [main] computes when the button is pressed (app.py, lines 422-470):
    the concrete load from the thickness and the reinforcement, then for each
    stage, with the workers' load of that stage, the combinations of the
    critical members ([gamma_d = 1.3]) and of the others ([gamma_d = 1.0]). *)
Definition calculate_results
  (G_f thickness reinforcement_percentage Q_w1 Q_w2 Q_w3
   Q_m Q_h W_s W_u F_w Q_x P_c I : float) : list (string * stage_result) :=
  let inputs_G_c := calculate_concrete_load thickness reinforcement_percentage in
  let stages :=
    [ ("1", (Q_w1, "Prior to concrete placement"));
      ("2", (Q_w2, "During concrete placement"));
      ("3", (Q_w3, "After concrete placement")) ] in
  map (fun item : string * (float * string) =>
         let stage := fst item in
         let data := snd item in
         let Q_w := fst data in
         let critical_combinations :=
           compute_combinations G_f inputs_G_c Q_w Q_m Q_h W_s W_u
             F_w Q_x P_c I stage 1.3 in
         let non_critical_combinations :=
           compute_combinations G_f inputs_G_c Q_w Q_m Q_h W_s W_u
             F_w Q_x P_c I stage 1.0 in
         (stage, {| description := snd data;
                    critical := critical_combinations;
                    non_critical := non_critical_combinations |}))
      stages.












(** A string has no character [c]. *)
Fixpoint lacks (c : ascii) (s : string) : bool :=
  match s with
  | EmptyString => true
  | String c' s' => negb (c' =? c)%char && lacks c s'
  end.

(* ================================================================== *)
(** * The results table *)

Section ResultsTable.

(** The stages and their numbers of catalog labels. *)
Let stage_table : list (string * Z) := [("1", 5%Z); ("2", 3%Z); ("3", 4%Z)].

(** The label as the data frame shows it. *)
Let clean (d : string) : string :=
  str_replace "</sub>" "" (str_replace "<sub>" "" d).

Lemma description_returns_nonneg stage n i :
  In (stage, n) stage_table -> (0 <= i)%Z ->
  exists d, get_combination_description stage i = Returns d.
Proof.
  intros Hs Hi.
  destruct (descriptions_of_stage stage n Hs) as (ds & Hds & Hlen).
  unfold get_combination_description. rewrite Hds, Hlen.
  destruct (Z.ltb_spec i n) as [Hlt | Hge].
  - apply list_getitem_returns. lia.
  - eexists. reflexivity.
Qed.

(** Every stage is one of the three of the table, or has no combination. *)
Lemma stage_known_or_empty
  (G_f G_c Q_w Q_m Q_h W_s W_u F_w Q_x P_c I : float)
  (stage : string) (gamma_d : float) :
  (exists n, In (stage, n) stage_table) \/
  (~ In stage ["1"; "2"; "3"] /\
   compute_combinations G_f G_c Q_w Q_m Q_h W_s W_u F_w Q_x P_c I
     stage gamma_d = []).
Proof.
  unfold compute_combinations.
  destruct (String.eqb_spec stage "1") as [-> | N1];
    [left; exists 5%Z; cbn; auto |].
  destruct (String.eqb_spec stage "2") as [-> | N2];
    [left; exists 3%Z; cbn; auto |].
  destruct (String.eqb_spec stage "3") as [-> | N3];
    [left; exists 4%Z; cbn; auto |].
  right. split; [| reflexivity].
  cbn. intros [H | [H | [H | []]]]; congruence.
Qed.

(** The rows of a known stage, position by position. *)
Lemma dataframe_rows_from_known stage n :
  In (stage, n) stage_table ->
  forall (combinations : list combination) (i : Z) (gamma_d : float),
    (0 <= i)%Z ->
    exists data,
      dataframe_rows_from i combinations stage gamma_d = Returns data /\
      List.length data = List.length combinations /\
      forall (k : nat) (r : dataframe_row),
        nth_error data k = Some r ->
        exists (c : combination) (d : string),
          nth_error combinations k = Some c /\
          get_combination_description stage (i + Z.of_nat k) = Returns d /\
          r = {| row_combination := clean d;
                 row_vertical := format_fixed 2 (fst c);
                 row_horizontal := format_fixed 2 (snd c);
                 row_gamma_d := format_fixed 1 gamma_d |}.
Proof.
  intros Hs combinations.
  induction combinations as [| [vertical horizontal] rest IH];
    intros i gamma_d Hi.
  - exists []. split; [reflexivity |]. split; [reflexivity |].
    intros [| k] r H; discriminate H.
  - destruct (description_returns_nonneg stage n i Hs Hi) as [d Hd].
    destruct (IH (i + 1)%Z gamma_d ltac:(lia)) as (data & Hdata & Hlen & Hrows).
    cbn [dataframe_rows_from]. rewrite Hd. cbn [bind]. rewrite Hdata.
    cbn [bind]. eexists. split; [reflexivity |].
    split; [cbn [List.length]; rewrite Hlen; reflexivity |].
    intros [| k] r H; cbn [nth_error] in H.
    + injection H as <-. exists (vertical, horizontal), d.
      split; [reflexivity |]. split; [| reflexivity].
      rewrite <- Hd. f_equal. cbn. lia.
    + destruct (Hrows k r H) as (c & d' & Hc & Hd' & Hr).
      exists c, d'. split; [exact Hc |]. split; [| exact Hr].
      rewrite <- Hd'. f_equal. lia.
Qed.

(** The rows carry the numbers of the combinations, whatever the stage. *)
Lemma dataframe_rows_from_numbers :
  forall (combinations : list combination) (i : Z) (stage : string)
         (gamma_d : float) (data : list dataframe_row),
    dataframe_rows_from i combinations stage gamma_d = Returns data ->
    forall (k : nat) (r : dataframe_row),
      nth_error data k = Some r ->
      exists c : combination,
        nth_error combinations k = Some c /\
        row_vertical r = format_fixed 2 (fst c) /\
        row_horizontal r = format_fixed 2 (snd c) /\
        row_gamma_d r = format_fixed 1 gamma_d.
Proof.
  induction combinations as [| [vertical horizontal] rest IH];
    intros i stage gamma_d data H k r Hk.
  - injection H as <-. destruct k; discriminate Hk.
  - cbn [dataframe_rows_from] in H.
    destruct (get_combination_description stage i) as [d | e];
      [| discriminate H].
    cbn [bind] in H.
    destruct (dataframe_rows_from (i + 1) rest stage gamma_d)
      as [data' | e] eqn:E; [| discriminate H].
    cbn [bind] in H. injection H as <-.
    destruct k as [| k]; cbn [nth_error] in Hk.
    + injection Hk as <-. exists (vertical, horizontal).
      repeat split; reflexivity.
    + exact (IH (i + 1)%Z stage gamma_d data' E k r Hk).
Qed.

End ResultsTable.

(* ================================================================== *)
(** * Properties of the results table *)

(** The data frame of what the engine computed for a stage is always built:
    for every parameter set, every stage string, known or not, and both
    factors, [create_results_dataframe] returns, with one row for each
    combination.  (For an unknown stage the engine returns no combination, so
    the catalog, which would raise, is never asked.) *)
Theorem dataframe_of_engine_returns :
  forall (G_f G_c Q_w Q_m Q_h W_s W_u F_w Q_x P_c I : float)
         (stage : string) (gamma_d shown : float),
    exists data : list dataframe_row,
      create_results_dataframe
        (compute_combinations G_f G_c Q_w Q_m Q_h W_s W_u F_w Q_x P_c I
           stage gamma_d) stage shown
      = Returns data /\
      List.length data
      = List.length
          (compute_combinations G_f G_c Q_w Q_m Q_h W_s W_u F_w Q_x P_c I
             stage gamma_d).
Proof.
  intros.
  destruct (stage_known_or_empty G_f G_c Q_w Q_m Q_h W_s W_u F_w Q_x P_c I
              stage gamma_d) as [[n Hs] | [_ ->]].
  - destruct (dataframe_rows_from_known stage n Hs
                (compute_combinations G_f G_c Q_w Q_m Q_h W_s W_u F_w Q_x P_c I
                   stage gamma_d) 0%Z shown ltac:(lia))
      as (data & Hdata & Hlen & _).
    exists data. split; [exact Hdata | exact Hlen].
  - exists []. split; reflexivity.
Qed.

(** On its own [create_results_dataframe] does raise: for a stage outside
    the three defined ones it raises [UnboundLocalError] as soon as there is
    one combination to show, and returns the empty frame only for the empty
    list. *)
Theorem dataframe_unknown_stage :
  forall (combinations : list combination) (stage : string) (gamma_d : float),
    ~ In stage ["1"; "2"; "3"] ->
    create_results_dataframe combinations stage gamma_d
    = match combinations with
      | [] => Returns []
      | _ :: _ => Raises UnboundLocalError
      end.
Proof.
  intros combinations stage gamma_d Hn.
  destruct combinations as [| [vertical horizontal] rest]; [reflexivity |].
  unfold create_results_dataframe. cbn [dataframe_rows_from].
  unfold get_combination_description.
  rewrite (descriptions_of_unknown stage Hn). reflexivity.
Qed.

Lemma dataframe_unknown_stage_witness :
  ~ In "4" ["1"; "2"; "3"] /\
  create_results_dataframe [(0.81, 0)%float] "4" 1.3
  = Raises UnboundLocalError.
Proof.
  assert (Hn : ~ In "4" ["1"; "2"; "3"]).
  { cbn. intros [H | [H | [H | []]]]; discriminate H. }
  split; [exact Hn |].
  exact (dataframe_unknown_stage [(0.81, 0)%float] "4" 1.3 Hn).
Defined.

(** In the data frame of what the engine computed, every row shows the
    factor it was given, to one decimal place, and every row but the second
    shows a horizontal load of 0.00. *)
Theorem dataframe_horizontal_zero :
  forall (G_f G_c Q_w Q_m Q_h W_s W_u F_w Q_x P_c I : float)
         (stage : string) (gamma_d shown : float)
         (data : list dataframe_row) (k : nat) (r : dataframe_row),
    create_results_dataframe
      (compute_combinations G_f G_c Q_w Q_m Q_h W_s W_u F_w Q_x P_c I
         stage gamma_d) stage shown
    = Returns data ->
    nth_error data k = Some r ->
    row_gamma_d r = format_fixed 1 shown /\
    (k <> 1%nat -> row_horizontal r = "0.00").
Proof.
  intros G_f G_c Q_w Q_m Q_h W_s W_u F_w Q_x P_c I stage gamma_d shown
         data k r Hdata Hk.
  destruct (dataframe_rows_from_numbers _ _ _ _ _ Hdata k r Hk)
    as (c & Hc & _ & Hh & Hg).
  split; [exact Hg |].
  intros Hk1. rewrite Hh.
  rewrite (horizontal_zero_off_second G_f G_c Q_w Q_m Q_h W_s W_u F_w Q_x P_c I
             gamma_d stage k c Hc Hk1).
  vm_compute. reflexivity.
Qed.

Lemma dataframe_horizontal_zero_witness :
  create_results_dataframe
    (compute_combinations 0.6 5.0 2.0 2.5 0.5 0 0 0 0 0 0 "2" 1.3) "2" 1.3
  = Returns
      [ {| row_combination := "6: 1.35Gf + 1.35Gc";
           row_vertical := "9.83"; row_horizontal := "0.00";
           row_gamma_d := "1.3" |};
        {| row_combination :=
             "7: 1.2Gf + 1.2Gc + 1.5Qw + 1.5Qm + 1.5Qh + 1Ws + 1.5Fw + 1.5Qx + Pc";
           row_vertical := "17.51"; row_horizontal := "0.98";
           row_gamma_d := "1.3" |};
        {| row_combination := "8: 1Gf + 1Gc + 1.1I";
           row_vertical := "5.60"; row_horizontal := "0.00";
           row_gamma_d := "1.3" |} ]
  /\ row_gamma_d {| row_combination := "8: 1Gf + 1Gc + 1.1I";
                    row_vertical := "5.60"; row_horizontal := "0.00";
                    row_gamma_d := "1.3" |} = format_fixed 1 1.3
  /\ (2%nat <> 1%nat -> "0.00" = "0.00").
Proof.
  assert (H : create_results_dataframe
    (compute_combinations 0.6 5.0 2.0 2.5 0.5 0 0 0 0 0 0 "2" 1.3) "2" 1.3
    = Returns
      [ {| row_combination := "6: 1.35Gf + 1.35Gc";
           row_vertical := "9.83"; row_horizontal := "0.00";
           row_gamma_d := "1.3" |};
        {| row_combination :=
             "7: 1.2Gf + 1.2Gc + 1.5Qw + 1.5Qm + 1.5Qh + 1Ws + 1.5Fw + 1.5Qx + Pc";
           row_vertical := "17.51"; row_horizontal := "0.98";
           row_gamma_d := "1.3" |};
        {| row_combination := "8: 1Gf + 1Gc + 1.1I";
           row_vertical := "5.60"; row_horizontal := "0.00";
           row_gamma_d := "1.3" |} ]) by (vm_compute; reflexivity).
  split; [exact H |].
  exact (dataframe_horizontal_zero 0.6 5.0 2.0 2.5 0.5 0 0 0 0 0 0 "2" 1.3 1.3
           _ 2%nat _ H eq_refl).
Defined.

(* ------------------------------------------------------------------ *)
(** ** Labels without markup *)

Section PlainLabels.

Lemma lacks_app (c : ascii) (s t : string) :
  lacks c (s ++ t) = lacks c s && lacks c t.
Proof.
  induction s as [| c' s IH]; [reflexivity |].
  cbn [append lacks]. rewrite IH. apply andb_assoc.
Qed.

(** Decimal digits and the sign are the only characters of [str(n)]. *)
Lemma lacks_string_of_uint (c : ascii) (d : Decimal.uint) :
  is_digit c = false -> lacks c (NilEmpty.string_of_uint d) = true.
Proof.
  intros Hc.
  induction d as [| d IH | d IH | d IH | d IH | d IH | d IH | d IH | d IH
                  | d IH | d IH];
    cbn [NilEmpty.string_of_uint lacks]; [reflexivity | ..];
    rewrite IH, andb_true_r;
    apply negb_true_iff, Ascii.eqb_neq; intros <-; discriminate Hc.
Qed.

Lemma lacks_str_of_int (c : ascii) (n : Z) :
  is_digit c = false -> c <> "-"%char -> lacks c (str_of_int n) = true.
Proof.
  intros Hc Hm. unfold str_of_int, NilZero.string_of_int.
  assert (Hu : forall d, lacks c (NilZero.string_of_uint d) = true).
  { intros d. unfold NilZero.string_of_uint.
    destruct d; try apply (lacks_string_of_uint c _ Hc).
    cbn [lacks]. rewrite andb_true_r.
    apply negb_true_iff, Ascii.eqb_neq. intros <-. discriminate Hc. }
  destruct (Z.to_int n) as [d | d]; [apply Hu |].
  cbn [lacks]. rewrite Hu, andb_true_r.
  apply negb_true_iff, Ascii.eqb_neq. intros E. apply Hm. symmetry. exact E.
Qed.

(** Replacing a string whose first character is not in [s] changes
    nothing. *)
Lemma str_replace_lacks (a : ascii) (old new s : string) :
  lacks a s = true -> str_replace (String a old) new s = s.
Proof.
  unfold str_replace. induction s as [| c s IH]; intros H; [reflexivity |].
  cbn [lacks] in H. apply andb_prop in H as [Hc Hs].
  cbn [replace_from prefix].
  destruct (Ascii.ascii_dec a c) as [-> | Hne].
  - rewrite Ascii.eqb_refl in Hc. discriminate Hc.
  - rewrite (IH Hs). reflexivity.
Qed.

(** The fallback label goes through the cleaning unchanged. *)
Lemma fallback_label_clean (n : Z) :
  str_replace "</sub>" "" (str_replace "<sub>" "" ("Combination " ++ str_of_int n))
  = "Combination " ++ str_of_int n
  /\ lacks "<" ("Combination " ++ str_of_int n) = true
  /\ lacks ">" ("Combination " ++ str_of_int n) = true.
Proof.
  assert (H1 : lacks "<" ("Combination " ++ str_of_int n) = true).
  { rewrite lacks_app, lacks_str_of_int;
      [reflexivity | reflexivity | intros E; discriminate E]. }
  assert (H2 : lacks ">" ("Combination " ++ str_of_int n) = true).
  { rewrite lacks_app, lacks_str_of_int;
      [reflexivity | reflexivity | intros E; discriminate E]. }
  split; [| split; assumption].
  rewrite (str_replace_lacks "<" "sub>" "" _ H1).
  apply (str_replace_lacks "<" "/sub>" "" _ H1).
Qed.

(** Every label of the catalog, cleaned, is free of angle brackets. *)
Lemma catalog_label_clean_plain stage n i d :
  In (stage, n) [("1", 5%Z); ("2", 3%Z); ("3", 4%Z)] ->
  (0 <= i)%Z ->
  get_combination_description stage i = Returns d ->
  lacks "<" (str_replace "</sub>" "" (str_replace "<sub>" "" d)) = true /\
  lacks ">" (str_replace "</sub>" "" (str_replace "<sub>" "" d)) = true.
Proof.
  intros Hs Hi Hd.
  destruct (Z.ltb_spec i n) as [Hlt | Hge].
  - destruct Hs as [H | [H | [H | []]]]; injection H as <- <-.
    + assert (E : i = 0%Z \/ i = 1%Z \/ i = 2%Z \/ i = 3%Z \/ i = 4%Z) by lia.
      destruct E as [-> | [-> | [-> | [-> | ->]]]];
        injection Hd as <-; split; vm_compute; reflexivity.
    + assert (E : i = 0%Z \/ i = 1%Z \/ i = 2%Z) by lia.
      destruct E as [-> | [-> | ->]];
        injection Hd as <-; split; vm_compute; reflexivity.
    + assert (E : i = 0%Z \/ i = 1%Z \/ i = 2%Z \/ i = 3%Z) by lia.
      destruct E as [-> | [-> | [-> | ->]]];
        injection Hd as <-; split; vm_compute; reflexivity.
  - destruct (descriptions_of_stage stage n Hs) as (ds & Hds & Hlen).
    unfold get_combination_description in Hd. rewrite Hds, Hlen in Hd.
    destruct (Z.ltb_spec i n) as [Hlt | _]; [lia |].
    assert (Ed : d = "Combination " ++ str_of_int (i + 1))
      by (injection Hd as Hd'; symmetry; exact Hd').
    destruct (fallback_label_clean (i + 1)) as (E & H1 & H2).
    rewrite Ed, E. split; assumption.
Qed.

End PlainLabels.

(** For each of the three stages [create_results_dataframe] returns for
    every list of combinations, however long, with one row for each; a row
    at or beyond the number of labels of the stage (5, 3, 4) is labelled
    [Combination N], [N] being its position counted from 1. *)
Theorem dataframe_rows_beyond_catalog :
  forall (stage : string) (n : Z) (combinations : list combination)
         (gamma_d : float),
    In (stage, n) [("1", 5%Z); ("2", 3%Z); ("3", 4%Z)] ->
    exists data : list dataframe_row,
      create_results_dataframe combinations stage gamma_d = Returns data /\
      List.length data = List.length combinations /\
      forall (k : nat) (r : dataframe_row),
        nth_error data k = Some r ->
        (n <= Z.of_nat k)%Z ->
        row_combination r = "Combination " ++ str_of_int (Z.of_nat k + 1).
Proof.
  intros stage n combinations gamma_d Hs.
  destruct (dataframe_rows_from_known stage n Hs combinations 0%Z gamma_d
              ltac:(lia)) as (data & Hdata & Hlen & Hrows).
  exists data. split; [exact Hdata |]. split; [exact Hlen |].
  intros k r Hk Hn.
  destruct (Hrows k r Hk) as (c & d & _ & Hd & ->). cbn [row_combination].
  destruct (descriptions_of_stage stage n Hs) as (ds & Hds & Hl).
  unfold get_combination_description in Hd. rewrite Hds, Hl in Hd.
  destruct (Z.ltb_spec (0 + Z.of_nat k) n) as [Hlt | _]; [lia |].
  assert (Ed : d = "Combination " ++ str_of_int (Z.of_nat k + 1))
    by (injection Hd as Hd'; symmetry; exact Hd').
  rewrite Ed. apply fallback_label_clean.
Qed.

Lemma dataframe_rows_beyond_catalog_witness :
  In ("2", 3%Z) [("1", 5%Z); ("2", 3%Z); ("3", 4%Z)] /\
  exists data : list dataframe_row,
    create_results_dataframe
      (compute_combinations 0.6 5.0 1.0 2.5 0 0 0 0 0 0 0 "1" 1.0) "2" 1.0
    = Returns data /\
    List.length data
    = List.length (compute_combinations 0.6 5.0 1.0 2.5 0 0 0 0 0 0 0 "1" 1.0) /\
    forall (k : nat) (r : dataframe_row),
      nth_error data k = Some r ->
      (3 <= Z.of_nat k)%Z ->
      row_combination r = "Combination " ++ str_of_int (Z.of_nat k + 1).
Proof.
  assert (Hs : In ("2", 3%Z) [("1", 5%Z); ("2", 3%Z); ("3", 4%Z)])
    by (cbn; auto).
  split; [exact Hs |].
  exact (dataframe_rows_beyond_catalog "2" 3
           (compute_combinations 0.6 5.0 1.0 2.5 0 0 0 0 0 0 0 "1" 1.0) 1.0 Hs).
Defined.

(** For each of the three stages, no label of the data frame keeps a
    character of the catalog's markup: the labels of the catalog lose their
    [<sub>] and [</sub>] tags, and the fallback labels have none. *)
Theorem dataframe_labels_plain :
  forall (stage : string) (n : Z) (combinations : list combination)
         (gamma_d : float) (data : list dataframe_row),
    In (stage, n) [("1", 5%Z); ("2", 3%Z); ("3", 4%Z)] ->
    create_results_dataframe combinations stage gamma_d = Returns data ->
    Forall (fun r => lacks "<" (row_combination r) = true /\
                     lacks ">" (row_combination r) = true) data.
Proof.
  intros stage n combinations gamma_d data Hs Hdata.
  destruct (dataframe_rows_from_known stage n Hs combinations 0%Z gamma_d
              ltac:(lia)) as (data' & Hdata' & _ & Hrows).
  unfold create_results_dataframe in Hdata. rewrite Hdata' in Hdata.
  injection Hdata as <-.
  apply Forall_forall. intros r Hr.
  apply In_nth_error in Hr as [k Hk].
  destruct (Hrows k r Hk) as (c & d & _ & Hd & ->). cbn [row_combination].
  apply (catalog_label_clean_plain stage n (0 + Z.of_nat k) d Hs);
    [lia | exact Hd].
Qed.

Lemma dataframe_labels_plain_witness :
  In ("3", 4%Z) [("1", 5%Z); ("2", 3%Z); ("3", 4%Z)] /\
  create_results_dataframe [(7.12, 0)%float] "3" 1.3
  = Returns [ {| row_combination := "9: 1.35Gf + 1.35Gc";
                 row_vertical := "7.12"; row_horizontal := "0.00";
                 row_gamma_d := "1.3" |} ] /\
  Forall (fun r => lacks "<" (row_combination r) = true /\
                   lacks ">" (row_combination r) = true)
    [ {| row_combination := "9: 1.35Gf + 1.35Gc";
         row_vertical := "7.12"; row_horizontal := "0.00";
         row_gamma_d := "1.3" |} ].
Proof.
  assert (Hs : In ("3", 4%Z) [("1", 5%Z); ("2", 3%Z); ("3", 4%Z)])
    by (cbn; auto).
  assert (H : create_results_dataframe [(7.12, 0)%float] "3" 1.3
    = Returns [ {| row_combination := "9: 1.35Gf + 1.35Gc";
                   row_vertical := "7.12"; row_horizontal := "0.00";
                   row_gamma_d := "1.3" |} ]) by (vm_compute; reflexivity).
  split; [exact Hs |]. split; [exact H |].
  exact (dataframe_labels_plain "3" 4 [(7.12, 0)%float] 1.3 _ Hs H).
Defined.

(* ================================================================== *)
(** * Properties of the results of a run *)

(** In the results of a run each stage depends only on its own loads: stage 1
    does not depend on the thickness, the reinforcement, the workers' loads
    of stages 2 and 3, [Q_x] and [P_c]; stage 2 does not depend on the
    workers' loads of stages 1 and 3 and [W_u]; stage 3 does not depend on
    the workers' loads of stages 1 and 2. *)
Theorem results_stage_noninterference :
  forall (G_f thickness reinforcement_percentage Q_w1 Q_w2 Q_w3
          Q_m Q_h W_s W_u F_w Q_x P_c I : float)
         (thickness' reinforcement_percentage' Q_w1' Q_w2' Q_w3'
          W_u' Q_x' P_c' : float),
    dict_get
      (calculate_results G_f thickness reinforcement_percentage
         Q_w1 Q_w2 Q_w3 Q_m Q_h W_s W_u F_w Q_x P_c I) "1"
    = dict_get
        (calculate_results G_f thickness' reinforcement_percentage'
           Q_w1 Q_w2' Q_w3' Q_m Q_h W_s W_u F_w Q_x' P_c' I) "1"
    /\
    dict_get
      (calculate_results G_f thickness reinforcement_percentage
         Q_w1 Q_w2 Q_w3 Q_m Q_h W_s W_u F_w Q_x P_c I) "2"
    = dict_get
        (calculate_results G_f thickness reinforcement_percentage
           Q_w1' Q_w2 Q_w3' Q_m Q_h W_s W_u' F_w Q_x P_c I) "2"
    /\
    dict_get
      (calculate_results G_f thickness reinforcement_percentage
         Q_w1 Q_w2 Q_w3 Q_m Q_h W_s W_u F_w Q_x P_c I) "3"
    = dict_get
        (calculate_results G_f thickness reinforcement_percentage
           Q_w1' Q_w2' Q_w3 Q_m Q_h W_s W_u F_w Q_x P_c I) "3".
Proof.
  intros. split; [reflexivity |]. split; reflexivity.
Qed.

Section Display.

Variables G_f thickness reinforcement_percentage Q_w1 Q_w2 Q_w3
          Q_m Q_h W_s W_u F_w Q_x P_c I : float.




End Display.

(* ================================================================== *)
(** * Properties of the report's parameter table *)

Section InputTable.

#[local] Open Scope list_scope.








End InputTable.

(* ================================================================== *)
(** * Further properties of the engine and the catalog *)

(** For a non-critical member the factor leaves no trace, and neither do the
    coefficients 1.0: at [gamma_d = 1.0] the engine returns, bit for bit, the
    sums without the factor and without the unit coefficients. *)
Theorem unit_factor_is_exact :
  forall G_f G_c Q_w Q_m Q_h W_s W_u F_w Q_x P_c I : float,
    compute_combinations G_f G_c Q_w Q_m Q_h W_s W_u F_w Q_x P_c I "1" 1.0
    = [ (1.35 * G_f, 0);
        (1.2 * G_f + 1.5 * Q_w + 1.5 * Q_m + W_s, 1.5 * Q_h);
        (1.2 * G_f + W_u + 1.5 * F_w, 0);
        (0.9 * G_f + W_u + 1.5 * F_w, 0);
        (G_f + 1.1 * I, 0) ]%float
    /\
    compute_combinations G_f G_c Q_w Q_m Q_h W_s W_u F_w Q_x P_c I "2" 1.0
    = [ (1.35 * G_f + 1.35 * G_c, 0);
        (1.2 * G_f + 1.2 * G_c + 1.5 * Q_w + 1.5 * Q_m + W_s
         + 1.5 * F_w + 1.5 * Q_x + P_c, 1.5 * Q_h);
        (G_f + G_c + 1.1 * I, 0) ]%float
    /\
    compute_combinations G_f G_c Q_w Q_m Q_h W_s W_u F_w Q_x P_c I "3" 1.0
    = [ (1.35 * G_f + 1.35 * G_c, 0);
        (1.2 * G_f + 1.2 * G_c + 1.5 * Q_w + 1.5 * Q_m + W_s
         + 1.5 * F_w + 1.5 * Q_x + P_c, 1.5 * Q_h);
        (1.2 * G_f + 1.2 * G_c + W_u, 0);
        (G_f + G_c + 1.1 * I, 0) ]%float.
Proof.
  intros. unfold compute_combinations.
  change ("1" =? "1") with true. change ("2" =? "1") with false.
  change ("2" =? "2") with true. change ("3" =? "1") with false.
  change ("3" =? "2") with false. change ("3" =? "3") with true.
  cbv iota zeta. rewrite !mul_1_l.
  split; [reflexivity |]. split; reflexivity.
Qed.

(** Stage 3 repeats stage 2: for the same loads and the same factor, the
    list of stage 3 is the list of stage 2 with the combination
    [(1.2 G_f + 1.2 G_c + 1.0 W_u, 0)] put in before its last element. *)
Theorem stage3_extends_stage2 :
  forall G_f G_c Q_w Q_m Q_h W_s W_u F_w Q_x P_c I gamma_d : float,
    exists c6 c7 c8 : combination,
      compute_combinations G_f G_c Q_w Q_m Q_h W_s W_u F_w Q_x P_c I
        "2" gamma_d
      = [c6; c7; c8] /\
      compute_combinations G_f G_c Q_w Q_m Q_h W_s W_u F_w Q_x P_c I
        "3" gamma_d
      = [c6; c7; (1.2 * G_f + 1.2 * G_c + 1.0 * W_u, 0)%float; c8].
Proof.
  intros. do 3 eexists. split; reflexivity.
Qed.

(** A negative index reaches the catalog's list from its end: for a stage
    with [n] labels and an index from [-n] to [-1], the catalog returns a
    label, the one it returns at [index + n]. *)
Theorem description_negative_index :
  forall (stage : string) (n index : Z),
    In (stage, n) [("1", 5%Z); ("2", 3%Z); ("3", 4%Z)] ->
    (- n <= index < 0)%Z ->
    exists label : string,
      get_combination_description stage index = Returns label /\
      get_combination_description stage (index + n) = Returns label.
Proof.
  intros stage n index Hs Hi.
  destruct (descriptions_of_stage stage n Hs) as (ds & Hds & Hlen).
  assert (Hr : exists label, list_getitem ds (index + n) = Returns label)
    by (apply list_getitem_returns; lia).
  destruct Hr as [label Hr]. exists label.
  unfold get_combination_description. rewrite Hds, Hlen.
  destruct (Z.ltb_spec index n) as [_ | H]; [| lia].
  destruct (Z.ltb_spec (index + n) n) as [_ | H]; [| lia].
  split; [| exact Hr].
  rewrite <- Hr. unfold list_getitem. cbv zeta. rewrite Hlen.
  destruct (Z.ltb_spec index 0) as [_ | H]; [| lia].
  destruct (Z.ltb_spec (index + n) 0) as [H | _]; [lia |]. cbv iota.
  destruct (Z.ltb_spec (index + n) 0) as [H | _]; [lia |].
  reflexivity.
Qed.

Lemma description_negative_index_witness :
  In ("1", 5%Z) [("1", 5%Z); ("2", 3%Z); ("3", 4%Z)] /\
  (- 5 <= -1 < 0)%Z /\
  exists label : string,
    get_combination_description "1" (-1) = Returns label /\
    get_combination_description "1" (-1 + 5) = Returns label.
Proof.
  assert (Hs : In ("1", 5%Z) [("1", 5%Z); ("2", 3%Z); ("3", 4%Z)])
    by (cbn; auto).
  assert (Hi : (- 5 <= -1 < 0)%Z) by lia.
  split; [exact Hs |]. split; [exact Hi |].
  exact (description_negative_index "1" 5 (-1) Hs Hi).
Defined.
